(** * TradeZella -> STB bulk-import merger: a shallow embedding of
    [tradezella_to_stb.py] and the properties of its field transformers,
    row mapper, row filter and sink selection. *)

From Stdlib Require Import
  Bool ZArith QArith List Permutation Sorting.Sorted Lia
  Strings.String Strings.Ascii Numbers.DecimalString.
Import ListNotations.
Open Scope string_scope.

(** ** Python values held in a pandas cell *)

(** A timestamp as produced by [pd.to_datetime]: calendar date plus the
    time of day in seconds. *)
Record timestamp := mk_ts {
  ts_year : Z; ts_month : Z; ts_day : Z; ts_secs : Z
}.

(** A calendar date, the result of [Timestamp.date()]. *)
Record date := mk_date { d_year : Z; d_month : Z; d_day : Z }.

(** The values a cell of a [pd.read_csv] frame (or [row.get]) can hold:
    [None], the float NaN, the float infinities, an int64, a finite float
    written as a decimal [m * 10^-e], a bool, a str, a [Timestamp], or
    pandas' missing timestamp [NaT]. *)
Inductive pyval :=
| PNone
| PNaN
| PInf (neg : bool)
| PInt (z : Z)
| PFloat (m : Z) (e : nat)
| PBool (b : bool)
| PStr (s : string)
| PTs (t : timestamp)
| PNaT.

(** [pd.isna] *)
Definition isna (v : pyval) : bool :=
  match v with PNone | PNaN | PNaT => true | _ => false end.

(** The exceptions the script lets escape: [KeyError] from a missing
    column, the error [pd.to_datetime] raises on a date it cannot parse,
    and the [ValueError] of [NaT.strftime]. *)
Inductive exn := KeyError (k : string) | DateParseError | NaTStrftime.

(** A computation that returns a value or raises. *)
Inductive result (A : Type) := Ok (a : A) | Raise (e : exn).
Arguments Ok {A} a.
Arguments Raise {A} e.

Definition res_map {A B} (f : A -> B) (x : result A) : result B :=
  match x with Ok a => Ok (f a) | Raise e => Raise e end.

(** ** Python string primitives on ASCII text *)

Definition Z_to_string (z : Z) : string := NilEmpty.string_of_int (Z.to_int z).

(** Characters [str.isspace] holds for in the ASCII range. *)
Definition is_py_space (c : ascii) : bool :=
  let n := nat_of_ascii c in
  (n =? 32)%nat || ((9 <=? n)%nat && (n <=? 13)%nat)
  || ((28 <=? n)%nat && (n <=? 31)%nat).

Fixpoint lstrip (s : string) : string :=
  match s with
  | EmptyString => EmptyString
  | String c s' => if is_py_space c then lstrip s' else s
  end.

Fixpoint rstrip (s : string) : string :=
  match s with
  | EmptyString => EmptyString
  | String c s' =>
      let r := rstrip s' in
      if (r =? "") && is_py_space c then EmptyString else String c r
  end.

(** [str.strip()] *)
Definition py_strip (s : string) : string := rstrip (lstrip s).

(** [str.lower()] on one character. *)
Definition ascii_lower (c : ascii) : ascii :=
  let n := nat_of_ascii c in
  if (65 <=? n)%nat && (n <=? 90)%nat then ascii_of_nat (n + 32) else c.

Fixpoint py_lower (s : string) : string :=
  match s with
  | EmptyString => EmptyString
  | String c s' => String (ascii_lower c) (py_lower s')
  end.

(** [pat in s] for strings. *)
Fixpoint contains (pat s : string) : bool :=
  prefix pat s || match s with
                  | EmptyString => false
                  | String _ s' => contains pat s'
                  end.

(** [s.replace(old, new)]: left-to-right, non-overlapping; [fuel] bounds
    the number of scanned positions (the length of [s] suffices when [old]
    is non-empty). *)
Fixpoint replace_fuel (fuel : nat) (old new s : string) : string :=
  match fuel with
  | O => s
  | S fuel' =>
      match s with
      | EmptyString => EmptyString
      | String c s' =>
          if (old =? "") then s
          else if prefix old s
          then new ++ replace_fuel fuel' old new
                        (substring (length old) (length s) s)
          else String c (replace_fuel fuel' old new s')
      end
  end.

Definition py_replace (old new s : string) : string :=
  replace_fuel (length s) old new s.

(** [s.split(sep)] for a one-character separator. *)
Fixpoint split_on (sep : ascii) (s : string) : list string :=
  match s with
  | EmptyString => [EmptyString]
  | String c s' =>
      match split_on sep s' with
      | [] => [String c EmptyString]
      | w :: ws => if Ascii.eqb c sep then EmptyString :: w :: ws
                   else String c w :: ws
      end
  end.

(** [sep.join(xs)] *)
Fixpoint join (sep : string) (xs : list string) : string :=
  match xs with
  | [] => EmptyString
  | [x] => x
  | x :: xs' => x ++ sep ++ join sep xs'
  end.

(** [x in xs] for a list or a set of strings. *)
Definition mem (x : string) (xs : list string) : bool :=
  existsb (String.eqb x) xs.

(** [str(v)]; a finite float prints as its decimal expansion with at
    least one fractional digit ([repr] switches to exponent notation only
    outside [1e-4, 1e16), which is not modelled). *)
Fixpoint zeros (n : nat) : string :=
  match n with O => EmptyString | S n' => String "0" (zeros n') end.

(** Left-pad with zeros to width [w], as [%02d] / [%04d] do. *)
Definition pad_left (w : nat) (s : string) : string := zeros (w - length s) ++ s.

Fixpoint trim_zeros (m : Z) (e : nat) (fuel : nat) : Z * nat :=
  match fuel, e with
  | S fuel', S e' =>
      if (Z.rem m 10 =? 0)%Z then trim_zeros (Z.quot m 10) e' fuel' else (m, e)
  | _, _ => (m, e)
  end.

Definition float_repr (m : Z) (e : nat) : string :=
  let '(m', e') := trim_zeros m e e in
  let sign := if (m' <? 0)%Z then "-" else "" in
  let a := Z.abs m' in
  match e' with
  | O => sign ++ Z_to_string a ++ ".0"
  | S _ =>
      let p := (10 ^ Z.of_nat e')%Z in
      sign ++ Z_to_string (a / p) ++ "." ++ pad_left e' (Z_to_string (a mod p))
  end.

Definition pad2 (z : Z) : string := pad_left 2 (Z_to_string z).
Definition pad4 (z : Z) : string := pad_left 4 (Z_to_string z).

Definition py_str (v : pyval) : string :=
  match v with
  | PNone => "None"
  | PNaN => "nan"
  | PInf neg => if neg then "-inf" else "inf"
  | PInt z => Z_to_string z
  | PFloat m e => float_repr m e
  | PBool b => if b then "True" else "False"
  | PStr s => s
  | PTs t =>
      pad4 (ts_year t) ++ "-" ++ pad2 (ts_month t) ++ "-" ++ pad2 (ts_day t)
      ++ " " ++ pad2 (ts_secs t / 3600) ++ ":" ++ pad2 (ts_secs t mod 3600 / 60)
      ++ ":" ++ pad2 (ts_secs t mod 60)
  | PNaT => "NaT"
  end.

(** ** Entry-model classifier ([get_entry_model]) *)

Definition OTHER : string := "other (specify below)".

(** [VALID_ENTRY_MODELS] *)
Definition VALID_ENTRY_MODELS : list string :=
  [ "3x entry"; "advanced structure entry"; "breakers";
    "catching the move of the day"; "catching the move of the week";
    "change of delivery"; "cisd"; "displacement"; "fail flip"; "inversions";
    "fcr"; "market structure shift"; "inverted fvg"; "mmem"; "ny fx entry";
    "smm entry"; OTHER; "time based entry model 2";
    "time based entry model 1" ].

Definition get_entry_model (val : pyval) : string * string :=
  if isna val || (py_strip (py_str val) =? "") then (OTHER, "-")
  else
    let normalised := py_replace "csid" "cisd" (py_str val) in
    let parts := map (fun p => py_lower (py_strip p)) (split_on "," normalised) in
    let matches := filter (fun p => mem p VALID_ENTRY_MODELS) parts in
    let non_other := filter (fun m => negb (m =? OTHER)) matches in
    let all_valid_non_other :=
      filter (fun m => negb (m =? OTHER)) VALID_ENTRY_MODELS in
    if forallb (fun m => mem m non_other) all_valid_non_other
    then (OTHER, "-")
    else match non_other with
         | m0 :: rest =>
             let extra := if (1 <? List.length non_other)%nat
                          then join ", " rest else "-" in
             (m0, extra)
         | [] => (OTHER, "-")
         end.

(** The 4.1 contract of the entry-model classifier, in the spec's words:
    a blank cell; the candidates obtained by normalising the legacy
    misspelling, splitting on commas, trimming and lowercasing, keeping the
    vocabulary members other than the catch-all; and the coverage test. *)
Definition is_blank_cell (v : pyval) : bool :=
  isna v || (py_strip (py_str v) =? "").

Definition candidate_matches (v : pyval) : list string :=
  filter (fun p => mem p VALID_ENTRY_MODELS && negb (p =? OTHER))
    (map (fun p => py_lower (py_strip p))
       (split_on "," (py_replace "csid" "cisd" (py_str v)))).

Definition covers_vocabulary (ms : list string) : Prop :=
  forall m, In m VALID_ENTRY_MODELS -> m <> OTHER -> In m ms.

Definition overflow_of (rest : list string) : string :=
  match rest with [] => "-" | _ => join ", " rest end.

(** ** Yes/no normaliser ([normalize_yesno]) *)

Definition normalize_yesno (val : pyval) : string :=
  let v := py_lower (py_strip (py_str val)) in
  if contains "yes" v && contains "no" v then ""
  else if mem v ["true"; "yes"; "1"; "y"] then "yes"
  else if mem v ["false"; "no"; "0"; "n"] then "no"
  else "".

(** The 4.3 contract in the spec's words: a case-insensitive comparison of
    the trimmed text with the accepted spellings. *)
Definition ci_eq (a b : string) : bool := py_lower a =? py_lower b.

Definition YES_WORDS : list string := ["true"; "yes"; "1"; "y"].
Definition NO_WORDS : list string := ["false"; "no"; "0"; "n"].

Fixpoint all_chars (f : ascii -> bool) (s : string) : bool :=
  match s with
  | EmptyString => true
  | String c s' => f c && all_chars f s'
  end.

(** ** Rows, floats and dates *)

(** A pandas row ([df.iterrows()]): column label to cell value. *)
Definition row := list (string * pyval).

(** [row.get(k, default)] *)
Definition row_get (r : row) (k : string) (default : pyval) : pyval :=
  match find (fun kv => fst kv =? k) r with
  | Some (_, v) => v
  | None => default
  end.

Definition has_key (r : row) (k : string) : bool :=
  existsb (fun kv => fst kv =? k) r.

(** A Python float: NaN, an infinity, or a finite value. *)
Inductive pyfloat := FNaN | FInf (neg : bool) | FFin (q : Q).

Definition float_eq0 (f : pyfloat) : bool :=
  match f with FFin q => Qeq_bool q 0 | _ => false end.
Definition float_gt0 (f : pyfloat) : bool :=
  match f with FFin q => negb (Qle_bool q 0) | FInf neg => negb neg | FNaN => false end.
Definition float_lt0 (f : pyfloat) : bool :=
  match f with FFin q => negb (Qle_bool 0 q) | FInf neg => neg | FNaN => false end.

(** [Timestamp.date()] *)
Definition ts_date (t : timestamp) : date :=
  mk_date (ts_year t) (ts_month t) (ts_day t).

(** What [pd.to_datetime] gives for one value: a timestamp or [NaT]. *)
Inductive dtval := DTs (t : timestamp) | DNaT.

(** What [safe_date] returns other than [None]: [Timestamp.date()], or
    [NaT.date()], which is [NaT] again. *)
Inductive sdate := SDate (d : date) | SNaT.

(** [d.strftime('%Y-%m-%d')], through the C library's [strftime]: glibc
    writes the year in decimal without padding, month and day on two
    digits. *)
Definition strftime_ymd (d : date) : string :=
  Z_to_string (d_year d) ++ "-" ++ pad2 (d_month d) ++ "-" ++ pad2 (d_day d).

(** [safe_str] *)
Definition safe_str (val : pyval) : string :=
  if isna val then ""
  else let s := py_strip (py_str val) in
       if py_lower s =? "nan" then "" else s.

Section Collaborators.
(** [float(s)] on a str: [None] when it raises [ValueError]. *)
Variable float_of_str : string -> option pyfloat.
(** [pd.to_datetime(v)] on a value that is not already a [Timestamp], [NaT]
    or NaN: a timestamp or [NaT] (for texts such as "NaT" or ""), [None]
    when it raises. *)
Variable parse_datetime : pyval -> option dtval.

(** [float(v)]: [None] when it raises [TypeError] or [ValueError]. *)
Definition py_float (v : pyval) : option pyfloat :=
  match v with
  | PNone => None
  | PNaN => Some FNaN
  | PInf neg => Some (FInf neg)
  | PInt z => Some (FFin (inject_Z z))
  | PFloat m e => Some (FFin (inject_Z m / inject_Z (10 ^ Z.of_nat e)))
  | PBool b => Some (FFin (if b then 1 else 0))
  | PStr s => float_of_str s
  | PTs _ | PNaT => None
  end.

Definition get_outcome (r : row) : string :=
  let status := py_lower (py_strip (py_str (row_get r "Status" (PStr "")))) in
  let pnl := match py_float (row_get r "Net P&L" (PInt 0)) with
             | Some f => f
             | None => FFin 0
             end in
  if (status =? "breakeven") || float_eq0 pnl then "breakeven"
  else if (status =? "win") || float_gt0 pnl then "green"
  else if (status =? "loss") || float_lt0 pnl then "red"
  else "".

(** [pd.to_datetime] *)
Definition to_datetime (v : pyval) : option dtval :=
  match v with
  | PTs t => Some (DTs t)
  | PNaT | PNaN => Some DNaT
  | _ => parse_datetime v
  end.

(** [safe_date]: [None] for a null value or when [pd.to_datetime] raises. *)
Definition safe_date (val : pyval) : option sdate :=
  if negb (isna val) then
    match to_datetime val with
    | Some (DTs t) => Some (SDate (ts_date t))
    | Some DNaT => Some SNaT
    | None => None
    end
  else None.

(** [format_date]: a [date] is true, and so is [NaT], whose [strftime]
    raises [ValueError] (outside the [try] of [safe_date]). *)
Definition format_date (val : pyval) : result string :=
  match safe_date val with
  | Some (SDate d) => Ok (strftime_ymd d)
  | Some SNaT => Raise NaTStrftime
  | None => Ok ""
  end.

(** [map_row]; [format_date] is the only part of it that can raise. *)
Definition map_row (r : row) : result (list pyval) :=
  let '(entry_model, other_specify) := get_entry_model (row_get r "Entry Model" PNone) in
  match format_date (row_get r "Open Date" PNone) with
  | Raise e => Raise e
  | Ok date_text => Ok
  [ PStr date_text;
    PStr entry_model;
    PStr other_specify;
    PStr "USD";
    row_get r "Net P&L" (PInt 0);
    PStr (get_outcome r);
    PStr (safe_str (row_get r "Emotions" PNone));
    PStr (normalize_yesno (row_get r "Did Emotions Affect Decisions?" PNone));
    PStr (normalize_yesno (row_get r "Was Emotionally Stable?" PNone));
    PStr (safe_str (row_get r "Profit Target   Did You Respect It?" PNone));
    PStr (safe_str (row_get r "Stop Loss   Did You Respect It?" PNone));
    PStr (safe_str (row_get r "Entry Logic Explanation" PNone));
    PStr (safe_str (row_get r "How Did The Trade Play Out?" PNone));
    PStr (safe_str (row_get r "Notes For Coaches" PNone));
    PStr "" ]
  end.

(** The values [write_to_sheets] passes to [sheet.update]:
    [[map_row(row) for _, row in df.iterrows()]]. *)
Fixpoint sheets_payload (df : list row) : result (list (list pyval)) :=
  match df with
  | [] => Ok []
  | r :: df' =>
      match map_row r with
      | Raise e => Raise e
      | Ok out =>
          match sheets_payload df' with
          | Ok outs => Ok (out :: outs)
          | Raise e => Raise e
          end
      end
  end.

(** The cells [write_to_xlsx] sets, as (row, column, value), rows from
    [i] on and columns from 1 on. *)
Fixpoint enumerate {A} (j : nat) (xs : list A) : list (nat * A) :=
  match xs with [] => [] | x :: xs' => (j, x) :: enumerate (S j) xs' end.

Fixpoint xlsx_cells (i : nat) (df : list row) : result (list (nat * nat * pyval)) :=
  match df with
  | [] => Ok []
  | r :: df' =>
      match map_row r with
      | Raise e => Raise e
      | Ok out =>
          match xlsx_cells (S i) df' with
          | Ok cells => Ok (map (fun jv => (i, fst jv, snd jv)) (enumerate 1 out) ++ cells)%list
          | Raise e => Raise e
          end
      end
  end.
End Collaborators.

(** The 4.2 contract in the claim's words: a non-numeric or missing P&L
    (an absent key, [None] or an empty cell, read as NaN) counts as 0. *)
Definition claimed_pnl (fs : string -> option pyfloat) (v : pyval) : pyfloat :=
  match v with
  | PNone | PNaN => FFin 0
  | _ => match py_float fs v with Some f => f | None => FFin 0 end
  end.

Definition claimed_outcome (fs : string -> option pyfloat) (r : row) : string :=
  let status := py_lower (py_strip (py_str (row_get r "Status" (PStr "")))) in
  let pnl := claimed_pnl fs (row_get r "Net P&L" PNone) in
  if (status =? "breakeven") || float_eq0 pnl then "breakeven"
  else if (status =? "win") || float_gt0 pnl then "green"
  else if (status =? "loss") || float_lt0 pnl then "red"
  else "".


(** ** Loading, filtering and sorting the CSV, and [main] *)

(** A frame read by [pd.read_csv]: its column labels and its rows. *)
Record table := mk_table { columns : list string; rows : list row }.

(** The row mask of line 266: [pd.notna(v) & (str(v).strip() != '')]. *)
Definition has_open_date (r : row) : bool :=
  let v := row_get r "Open Date" PNone in
  negb (isna v) && negb (py_strip (py_str v) =? "").

(** Assigning one column of a row. *)
Definition row_set (k : string) (v : pyval) (r : row) : row :=
  map (fun kv => if fst kv =? k then (fst kv, v) else kv) r.


Definition ts_leb (a b : timestamp) : bool :=
  (ts_year a <? ts_year b)%Z
  || ((ts_year a =? ts_year b)%Z
      && ((ts_month a <? ts_month b)%Z
          || ((ts_month a =? ts_month b)%Z
              && ((ts_day a <? ts_day b)%Z
                  || ((ts_day a =? ts_day b)%Z && (ts_secs a <=? ts_secs b)%Z))))).

Definition date_key (r : row) : timestamp :=
  match row_get r "Open Date" PNone with PTs t => t | _ => mk_ts 0 0 0 0 end.

(** [df.sort_values('Open Date')]: the rows with a timestamp sorted by it,
    here by an insertion sort, then the [NaT] rows in their original order
    ([na_position='last']). pandas' default quicksort is not stable, so the
    order of rows with equal dates is not modelled faithfully (no property
    here depends on it). *)
Fixpoint insert_row (r : row) (df : list row) : list row :=
  match df with
  | [] => [r]
  | r' :: df' => if ts_leb (date_key r) (date_key r') then r :: df
                 else r' :: insert_row r df'
  end.

Fixpoint sort_by_date (df : list row) : list row :=
  match df with [] => [] | r :: df' => insert_row r (sort_by_date df') end.

Definition date_isna (r : row) : bool := isna (row_get r "Open Date" PNone).

Definition sort_rows (df : list row) : list row :=
  (sort_by_date (filter (fun r => negb (date_isna r)) df) ++ filter date_isna df)%list.

Definition SPREADSHEET_ID : string := "YOUR_SPREADSHEET_ID_HERE".
Definition SHEET_TAB_NAME : string := "Sheet1".

(** The command line after [parse_args]; [None] for an option not given. *)
Record args := mk_args {
  a_csv : string; a_sheets : bool; a_xlsx : bool;
  a_sheet_id : option string; a_creds : option string;
  a_tab : option string; a_template : option string; a_output : option string
}.

(** What [main] reads from its surroundings: [os.path.exists], the frame
    [pd.read_csv] returns, the script's directory and today's [%Y%m%d]. *)
Record env := mk_env {
  path_exists : string -> bool;
  read_csv : string -> table;
  script_dir : string;
  today : string
}.

Fixpoint ends_with_slash (s : string) : bool :=
  match s with
  | EmptyString => false
  | String c EmptyString => Ascii.eqb c "/"
  | String _ s' => ends_with_slash s'
  end.

(** [os.path.join(a, b)] *)
Definition path_join (a b : string) : string :=
  if prefix "/" b then b
  else if (a =? "") || ends_with_slash a then a ++ b
  else a ++ "/" ++ b.

Definition SERVICE_ACCOUNT_FILE (e : env) : string :=
  path_join (script_dir e) "service_account.json".
Definition TEMPLATE_PATH (e : env) : string :=
  path_join (script_dir e) "STB_Import_Template.xlsx".

(** [x or default] on an optional string argument. *)
Definition py_or (o : option string) (default : string) : string :=
  match o with Some s => if s =? "" then default else s | None => default end.

(** The output-mode choice of [main] (lines 277-284). *)
Definition use_sheets (xlsx sheets : bool) (sheet_id : string) (creds_exists : bool) : bool :=
  if xlsx then false
  else if sheets then true
  else negb (sheet_id =? SPREADSHEET_ID) && creds_exists.

Inductive outcome :=
| Exit (code : Z)
| Raised (e : exn)
| WroteSheets (sheet_id creds tab : string) (values : list (list pyval))
| WroteXlsx (template output : string) (cells : list (nat * nat * pyval)).

Section Pipeline.
Variable float_of_str : string -> option pyfloat.
Variable parse_datetime : pyval -> option dtval.

Definition dt_cell (d : dtval) : pyval :=
  match d with DTs t => PTs t | DNaT => PNaT end.

(** [df['Open Date'] = pd.to_datetime(df['Open Date'])]: raises when one
    value cannot be parsed. *)
Fixpoint convert_dates (df : list row) : option (list row) :=
  match df with
  | [] => Some []
  | r :: df' =>
      match to_datetime parse_datetime (row_get r "Open Date" PNone),
            convert_dates df' with
      | Some d, Some df'' => Some (row_set "Open Date" (dt_cell d) r :: df'')
      | _, _ => None
      end
  end.

(** Lines 264-269: filter, convert and sort the frame. *)
Definition prepare_frame (tbl : table) : result (list row) :=
  if negb (mem "Open Date" (columns tbl)) then Raise (KeyError "Open Date")
  else match convert_dates (filter has_open_date (rows tbl)) with
       | None => Raise DateParseError
       | Some df => Ok (sort_rows df)
       end.

Definition main (e : env) (a : args) : outcome :=
  if negb (path_exists e (a_csv a)) then Exit 1
  else match prepare_frame (read_csv e (a_csv a)) with
  | Raise ex => Raised ex
  | Ok df =>
      let sheet_id := py_or (a_sheet_id a) SPREADSHEET_ID in
      let creds := py_or (a_creds a) (SERVICE_ACCOUNT_FILE e) in
      if use_sheets (a_xlsx a) (a_sheets a) sheet_id (path_exists e creds) then
        if sheet_id =? SPREADSHEET_ID then Exit 1
        else if negb (path_exists e creds) then Exit 1
        else match sheets_payload float_of_str parse_datetime df with
             | Ok vals =>
                 WroteSheets sheet_id creds
                   (match a_tab a with Some t => t | None => SHEET_TAB_NAME end) vals
             | Raise ex => Raised ex
             end
      else
        let template := match a_template a with
                        | Some t => t | None => TEMPLATE_PATH e end in
        if negb (path_exists e template) then Exit 1
        else let output := py_or (a_output a)
                 (path_join (script_dir e)
                    ("STB_Import_Merged_" ++ today e ++ ".xlsx")) in
             match xlsx_cells float_of_str parse_datetime 2 df with
             | Ok cells => WroteXlsx template output cells
             | Raise ex => Raised ex
             end
  end.
End Pipeline.

(** ** Writing the sinks' worksheets *)

(** A worksheet as its rows of cell values, row 1 first; [PNone] is an
    empty cell. Both [openpyxl] and [gspread] address cells 1-based and
    grow the sheet when a cell beyond its end is written. *)
Definition grid := list (list pyval).

Fixpoint set_nth_pad (n : nat) (v : pyval) (r : list pyval) : list pyval :=
  match n, r with
  | O, [] => [v]
  | O, _ :: r' => v :: r'
  | S n', [] => PNone :: set_nth_pad n' v []
  | S n', x :: r' => x :: set_nth_pad n' v r'
  end.

Fixpoint update_row (n : nat) (f : list pyval -> list pyval) (g : grid) : grid :=
  match n, g with
  | O, [] => [f []]
  | O, r :: g' => f r :: g'
  | S n', [] => [] :: update_row n' f []
  | S n', r :: g' => r :: update_row n' f g'
  end.

(** [ws.cell(row=i, column=j).value = v] *)
Definition set_cell (g : grid) (i j : nat) (v : pyval) : grid :=
  update_row (i - 1) (set_nth_pad (j - 1) v) g.

Definition write_cells (g : grid) (cells : list (nat * nat * pyval)) : grid :=
  fold_left (fun g c => set_cell g (fst (fst c)) (snd (fst c)) (snd c)) cells g.

(** [ws.max_row]: at least 1, also for an empty sheet. *)
Definition max_row (g : grid) : nat := Nat.max 1 (List.length g).

(** [ws.delete_rows(idx, amount)]: rows [idx .. idx+amount-1] go, the rows
    below move up. *)
Definition delete_rows (g : grid) (idx amount : nat) : grid :=
  (firstn (idx - 1) g ++ skipn (idx - 1 + amount) g)%list.

(** The cells a block of rows occupies when written with its top-left
    corner in column A of row [i] ([sheet.update(f"A{i}", rows)]). *)
Fixpoint block_cells (i : nat) (vals : list (list pyval)) : list (nat * nat * pyval) :=
  match vals with
  | [] => []
  | r :: vals' =>
      (map (fun jv => (i, fst jv, snd jv)) (enumerate 1 r) ++ block_cells (S i) vals')%list
  end.

(** [write_to_xlsx]: the active sheet of the template after the old data
    rows are removed and the mapped rows are written from row 2 on; when
    [map_row] raises, the workbook is not saved. *)
Definition write_to_xlsx fs pdt (ws : grid) (df : list row) : result grid :=
  let ws1 := if (1 <? max_row ws)%nat then delete_rows ws 2 (max_row ws) else ws in
  match xlsx_cells fs pdt 2 df with
  | Ok cells => Ok (write_cells ws1 cells)
  | Raise e => Raise e
  end.

(** [write_to_sheets]: the sheet after the mapped rows are written from
    the first row after [sheet.get_all_values()]; nothing is written when
    there are no rows. *)
Definition write_to_sheets fs pdt (existing : grid) (df : list row) : result grid :=
  let next_row := (List.length existing + 1)%nat in
  match sheets_payload fs pdt df with
  | Raise e => Raise e
  | Ok [] => Ok existing
  | Ok rs => Ok (write_cells existing (block_cells next_row rs))
  end.

(** Reading a date back from its "YYYY-MM-DD" text (used to state that
    [format_date] loses nothing of the date). *)
Definition digit_val (c : ascii) : option Z :=
  let n := nat_of_ascii c in
  if (48 <=? n)%nat && (n <=? 57)%nat then Some (Z.of_nat (n - 48)) else None.

Fixpoint digits_value (acc : Z) (s : string) : option Z :=
  match s with
  | EmptyString => Some acc
  | String c s' =>
      match digit_val c with
      | Some d => digits_value (10 * acc + d) s'
      | None => None
      end
  end.

Definition parse_ymd (s : string) : option date :=
  if (length s =? 10)%nat && (substring 4 1 s =? "-") && (substring 7 1 s =? "-")
  then match digits_value 0 (substring 0 4 s), digits_value 0 (substring 5 2 s),
             digits_value 0 (substring 8 2 s) with
       | Some y, Some m, Some d => Some (mk_date y m d)
       | _, _, _ => None
       end
  else None.

(** Sample surroundings for evaluating [main]. *)
Definition demo_env : env :=
  mk_env (fun _ => true)
    (fun _ => mk_table ["Open Date"] [[("Open Date", PTs (mk_ts 2024 3 15 0))]])
    "/home/u" "20241018".

Definition demo_args (xlsx sheets : bool) : args :=
  mk_args "trades.csv" sheets xlsx (Some "1AbC-sheet") None None None None.

Definition no_date_env : env :=
  mk_env (fun _ => true)
    (fun _ => mk_table ["Date"; "Net P&L"] [[("Date", PStr "2024-03-15"); ("Net P&L", PInt 5)]])
    "/home/u" "20241018".

(** [f z] is [w] digits that read back as [z]. *)
Definition digits_ok (f : Z -> string) (w : nat) (z : Z) : bool :=
  (length (f z) =? w)%nat &&
  match digits_value 0 (f z) with
  | Some z' => (z' =? z)%Z
  | None => false
  end.

(** A sample date parser: "YYYY-MM-DD" text, "NaT" and "" (parsed to
    [NaT]); it rejects any other value. *)
Definition demo_parse (v : pyval) : option dtval :=
  match v with
  | PStr s =>
      if (s =? "NaT") || (s =? "") then Some DNaT
      else option_map (fun d => DTs (mk_ts (d_year d) (d_month d) (d_day d) 0))
             (parse_ymd s)
  | _ => None
  end.

Definition date_le (a b : row) : Prop := ts_leb (date_key a) (date_key b) = true.

Definition cloud_env : env :=
  mk_env (fun _ => true)
    (fun _ => mk_table ["Open Date"] [[("Open Date", PTs (mk_ts 2024 3 15 0))]])
    "/home/u" "20241018".

Ltac split_main H :=
  unfold main in H;
  repeat match type of H with
         | context [if ?b then _ else _] => let E := fresh "E" in destruct b eqn:E
         | context [match ?x with Ok _ => _ | Raise _ => _ end] =>
             let E := fresh "Ef" in destruct x eqn:E
         end;
  try discriminate H.

(** After [convert_dates], every "Open Date" holds a timestamp or [NaT]. *)
Definition dated_cell (v : pyval) : Prop := (exists t, v = PTs t) \/ v = PNaT.

(** ** Lemmas *)

Example get_entry_model_breakers_cisd :
  get_entry_model (PStr "breakers, cisd") = ("breakers", "cisd").
Proof. vm_compute. reflexivity. Qed.

Example get_entry_model_csid :
  get_entry_model (PStr "Breakers,csid, FCR") = ("breakers", "cisd, fcr").
Proof. vm_compute. reflexivity. Qed.

Example get_entry_model_CSID :
  get_entry_model (PStr "CSID") = (OTHER, "-").
Proof. vm_compute. reflexivity. Qed.

Example get_entry_model_dump :
  get_entry_model (PStr (join ", " VALID_ENTRY_MODELS)) = (OTHER, "-").
Proof. vm_compute. reflexivity. Qed.

Example float_repr_ex : py_str (PFloat 15050 2) = "150.5"
  /\ py_str (PFloat (-3) 0) = "-3.0" /\ py_str (PFloat 5 3) = "0.005".
Proof. vm_compute. auto. Qed.

Lemma filter_filter_and {A} (f g : A -> bool) (l : list A) :
  filter g (filter f l) = filter (fun x => f x && g x) l.
Proof.
  induction l as [|x l IH]; simpl; [reflexivity|].
  destruct (f x); simpl; [destruct (g x); simpl|]; rewrite IH; reflexivity.
Qed.

Lemma mem_In x xs : mem x xs = true <-> In x xs.
Proof.
  unfold mem. rewrite existsb_exists. split.
  - intros [y [Hy Heq]]. apply String.eqb_eq in Heq. subst. exact Hy.
  - intros H. exists x. split; [exact H | apply String.eqb_refl].
Qed.

Lemma covers_vocabulary_spec ms :
  forallb (fun m => mem m ms)
    (filter (fun m => negb (m =? OTHER)) VALID_ENTRY_MODELS) = true
  <-> covers_vocabulary ms.
Proof.
  rewrite forallb_forall. unfold covers_vocabulary. split.
  - intros H m Hin Hne. apply mem_In, H, filter_In. split; [exact Hin|].
    apply negb_true_iff, String.eqb_neq. exact Hne.
  - intros H m Hm. apply filter_In in Hm as [Hin Hne].
    apply negb_true_iff, String.eqb_neq in Hne. apply mem_In, H; assumption.
Qed.

Lemma get_entry_model_unfold v :
  get_entry_model v =
  if is_blank_cell v then (OTHER, "-")
  else if forallb (fun m => mem m (candidate_matches v))
            (filter (fun m => negb (m =? OTHER)) VALID_ENTRY_MODELS)
  then (OTHER, "-")
  else match candidate_matches v with
       | m0 :: rest => (m0, overflow_of rest)
       | [] => (OTHER, "-")
       end.
Proof.
  unfold get_entry_model, is_blank_cell, candidate_matches.
  rewrite filter_filter_and.
  destruct (isna v || (py_strip (py_str v) =? "")); [reflexivity|].
  destruct (forallb _ _); [reflexivity|].
  destruct (filter _ _) as [|m0 [|m1 rest]]; reflexivity.
Qed.

(** ** Claims *)

(** C1: for every raw cell value the entry-model classifier meets the 4.1
    contract: a blank or missing cell, a cell whose candidates cover the
    whole non-catch-all vocabulary, and a cell with no candidate give
    (catch-all, "-"); otherwise the primary label is the first candidate in
    textual order and the overflow joins the remaining candidates with
    ", " when there are at least two candidates, else "-". *)
Theorem get_entry_model_contract (v : pyval) :
  (is_blank_cell v = true -> get_entry_model v = (OTHER, "-")) /\
  (covers_vocabulary (candidate_matches v) -> get_entry_model v = (OTHER, "-")) /\
  (candidate_matches v = [] -> get_entry_model v = (OTHER, "-")) /\
  (forall m0 rest,
      is_blank_cell v = false ->
      ~ covers_vocabulary (candidate_matches v) ->
      candidate_matches v = m0 :: rest ->
      get_entry_model v = (m0, if (2 <=? List.length (m0 :: rest))%nat
                               then join ", " rest else "-")).
Proof.
  rewrite get_entry_model_unfold.
  split; [|split; [|split]].
  - intros H. rewrite H. reflexivity.
  - intros H. apply covers_vocabulary_spec in H. rewrite H.
    destruct (is_blank_cell v); reflexivity.
  - intros H. rewrite H.
    destruct (is_blank_cell v); [reflexivity|].
    destruct (forallb _ _); reflexivity.
  - intros m0 rest Hb Hc Hm. rewrite Hb.
    destruct (forallb _ _) eqn:Hf.
    + exfalso. apply Hc, covers_vocabulary_spec, Hf.
    + rewrite Hm. destruct rest; reflexivity.
Qed.

Lemma ascii_lower_cases c :
  ascii_lower c = c \/ (nat_of_ascii c + 32 = nat_of_ascii (ascii_lower c))%nat.
Proof.
  destruct c as [[] [] [] [] [] [] [] []];
    first [left; reflexivity | right; reflexivity].
Qed.

Lemma ascii_lower_inv c l :
  ascii_lower c = l -> c = l \/ c = ascii_of_nat (nat_of_ascii l - 32).
Proof.
  intros H. destruct (ascii_lower_cases c) as [E|E].
  - left. congruence.
  - right. rewrite H in E. rewrite <- (ascii_nat_embedding c). f_equal. lia.
Qed.

(** C9: the legacy-misspelling normalisation is a case-sensitive
    replacement of "csid" by "cisd" on the raw text, done before splitting
    and lowercasing: "csid" is classified as "cisd", while every other
    casing of it (such as "CSID") is left alone and gives the catch-all
    label with overflow "-". *)
Theorem csid_normalisation_case_sensitive :
  get_entry_model (PStr "csid") = ("cisd", "-") /\
  forall s, py_lower s = "csid" -> s <> "csid" ->
            get_entry_model (PStr s) = (OTHER, "-").
Proof.
  split; [vm_compute; reflexivity|].
  intros s H Hne.
  destruct s as [|c1 [|c2 [|c3 [|c4 [|c5 s]]]]]; simpl in H; try discriminate.
  injection H as H1 H2 H3 H4.
  apply ascii_lower_inv in H1, H2, H3, H4.
  destruct H1 as [->| ->], H2 as [->| ->], H3 as [->| ->], H4 as [->| ->];
    solve [exfalso; apply Hne; reflexivity | vm_compute; reflexivity].
Qed.

Example normalize_yesno_examples :
  normalize_yesno (PStr "Yes, No") = "" /\ normalize_yesno (PStr "Y") = "yes"
  /\ normalize_yesno (PStr "0") = "no" /\ normalize_yesno (PStr "maybe") = ""
  /\ normalize_yesno (PInt 1) = "yes" /\ normalize_yesno PNaN = "".
Proof. vm_compute. repeat split. Qed.

Lemma is_py_space_lower c : is_py_space (ascii_lower c) = is_py_space c.
Proof. destruct c as [[] [] [] [] [] [] [] []]; reflexivity. Qed.

Lemma py_lower_empty s : (py_lower s =? "") = (s =? "").
Proof. destruct s; reflexivity. Qed.

Lemma py_lower_lstrip s : py_lower (lstrip s) = lstrip (py_lower s).
Proof.
  induction s as [|c s IH]; simpl; [reflexivity|].
  rewrite is_py_space_lower. destruct (is_py_space c); [exact IH|reflexivity].
Qed.

Lemma py_lower_rstrip s : py_lower (rstrip s) = rstrip (py_lower s).
Proof.
  induction s as [|c s IH]; simpl; [reflexivity|].
  rewrite is_py_space_lower, <- IH, py_lower_empty.
  destruct ((rstrip s =? "") && is_py_space c); reflexivity.
Qed.

Lemma py_lower_strip s : py_lower (py_strip s) = py_strip (py_lower s).
Proof. unfold py_strip. rewrite py_lower_rstrip, py_lower_lstrip. reflexivity. Qed.

Lemma contains_cons p c s :
  contains p (String c s) = prefix p (String c s) || contains p s.
Proof. reflexivity. Qed.

Section NoSpacePattern.
Variable p : string.
Hypothesis p_nonempty : p <> "".
Hypothesis p_no_space : all_chars (fun c => negb (is_py_space c)) p = true.

Lemma prefix_space_false c s :
  is_py_space c = true -> prefix p (String c s) = false.
Proof.
  intros Hc. destruct p as [|d q]; [congruence|].
  simpl in *. destruct (ascii_dec d c) as [->|]; [|reflexivity].
  rewrite Hc in p_no_space. discriminate.
Qed.

Lemma contains_lstrip s : contains p s = true -> contains p (lstrip s) = true.
Proof.
  induction s as [|c s IH]; [tauto|].
  rewrite contains_cons. cbn [lstrip].
  destruct (is_py_space c) eqn:Hc; [|rewrite contains_cons; tauto].
  rewrite prefix_space_false by exact Hc. exact IH.
Qed.

Lemma contains_empty : contains p "" = false.
Proof. destruct p; [congruence|reflexivity]. Qed.
End NoSpacePattern.

Lemma prefix_rstrip q s :
  all_chars (fun c => negb (is_py_space c)) q = true ->
  prefix q s = true -> prefix q (rstrip s) = true.
Proof.
  revert q. induction s as [|c s IH]; intros q Hq Hp.
  - exact Hp.
  - destruct q as [|d q]; [destruct (rstrip (String c s)); reflexivity|].
    simpl in Hp, Hq |- *. destruct (ascii_dec d c) as [->|]; [|discriminate].
    apply andb_prop in Hq as [Hc Hq]. apply negb_true_iff in Hc. rewrite Hc.
    rewrite andb_false_r. simpl.
    destruct (ascii_dec c c); [|congruence]. apply IH; assumption.
Qed.

Lemma contains_rstrip p s :
  p <> "" -> all_chars (fun c => negb (is_py_space c)) p = true ->
  contains p s = true -> contains p (rstrip s) = true.
Proof.
  intros Hne Hp. induction s as [|c s IH]; [tauto|].
  intros H. rewrite contains_cons in H. apply orb_prop in H.
  destruct ((rstrip s =? "") && is_py_space c) eqn:E.
  - exfalso. apply andb_prop in E as [Er Ec]. apply String.eqb_eq in Er.
    destruct H as [H|H].
    + rewrite prefix_space_false in H by assumption. discriminate.
    + apply IH in H. rewrite Er, contains_empty in H by assumption.
      discriminate.
  - assert (Hr : rstrip (String c s) = String c (rstrip s)) by (simpl; rewrite E; reflexivity).
    destruct H as [H|H].
    + rewrite Hr, contains_cons. apply orb_true_intro. left. rewrite <- Hr.
      apply prefix_rstrip; assumption.
    + rewrite Hr, contains_cons. apply orb_true_intro. right. apply IH, H.
Qed.

Lemma contains_strip p s :
  p <> "" -> all_chars (fun c => negb (is_py_space c)) p = true ->
  contains p s = true -> contains p (py_strip s) = true.
Proof.
  intros Hne Hp H. unfold py_strip.
  apply contains_rstrip, contains_lstrip; assumption.
Qed.

Lemma ci_eq_word t w :
  In w (YES_WORDS ++ NO_WORDS) -> ci_eq t w = true -> py_lower t = w.
Proof.
  intros Hw H. apply String.eqb_eq in H. rewrite H.
  repeat (destruct Hw as [<-|Hw]; [reflexivity|]). destruct Hw.
Qed.

(** C4: the yes/no normaliser answers "yes" when the trimmed text equals
    one of "true", "yes", "1", "y" case-insensitively, "no" when it equals
    one of "false", "no", "0", "n", and "" otherwise; and whenever the text
    contains both "yes" and "no" (case-insensitively) it answers "". The
    override never hides an accepted spelling, since none of them contains
    both words. *)
Theorem normalize_yesno_contract (val : pyval) :
  let t := py_strip (py_str val) in
  (existsb (ci_eq t) YES_WORDS = true -> normalize_yesno val = "yes") /\
  (existsb (ci_eq t) NO_WORDS = true -> normalize_yesno val = "no") /\
  (existsb (ci_eq t) YES_WORDS = false -> existsb (ci_eq t) NO_WORDS = false ->
   normalize_yesno val = "") /\
  (contains "yes" (py_lower (py_str val)) = true ->
   contains "no" (py_lower (py_str val)) = true -> normalize_yesno val = "").
Proof.
  intros t. unfold normalize_yesno. fold t.
  split; [|split; [|split]].
  - intros H. apply existsb_exists in H as [w [Hw H]].
    apply ci_eq_word in H; [|apply in_or_app; left; exact Hw]. rewrite H.
    repeat (destruct Hw as [<-|Hw]; [reflexivity|]). destruct Hw.
  - intros H. apply existsb_exists in H as [w [Hw H]].
    apply ci_eq_word in H; [|apply in_or_app; right; exact Hw]. rewrite H.
    repeat (destruct Hw as [<-|Hw]; [reflexivity|]). destruct Hw.
  - intros Hy Hn.
    destruct (contains "yes" (py_lower t) && contains "no" (py_lower t));
      [reflexivity|].
    destruct (mem (py_lower t) ["true"; "yes"; "1"; "y"]) eqn:My.
    + exfalso. apply mem_In in My.
      assert (E : existsb (ci_eq t) YES_WORDS = true).
      { apply existsb_exists. exists (py_lower t). split; [exact My|].
        unfold ci_eq. apply String.eqb_eq.
        repeat (destruct My as [<-|My]; [reflexivity|]). destruct My. }
      congruence.
    + destruct (mem (py_lower t) ["false"; "no"; "0"; "n"]) eqn:Mn;
        [|reflexivity].
      exfalso. apply mem_In in Mn.
      assert (E : existsb (ci_eq t) NO_WORDS = true).
      { apply existsb_exists. exists (py_lower t). split; [exact Mn|].
        unfold ci_eq. apply String.eqb_eq.
        repeat (destruct Mn as [<-|Mn]; [reflexivity|]). destruct Mn. }
      congruence.
  - intros Hy Hn. unfold t. rewrite py_lower_strip.
    rewrite (contains_strip "yes"), (contains_strip "no");
      solve [reflexivity | discriminate | assumption].
Qed.

Example get_outcome_examples :
  let fs := fun _ : string => @None pyfloat in
  get_outcome fs [("Status", PStr "Win"); ("Net P&L", PInt 150)] = "green" /\
  get_outcome fs [("Status", PStr ""); ("Net P&L", PInt (-1))] = "red" /\
  get_outcome fs [("Status", PStr "Breakeven"); ("Net P&L", PInt 75)] = "breakeven" /\
  get_outcome fs [("Status", PStr "loss"); ("Net P&L", PStr "n/a")] = "breakeven" /\
  get_outcome fs [("Status", PStr " LOSS ")] = "breakeven".
Proof. vm_compute. repeat split. Qed.

Lemma row_get_absent r k d : has_key r k = false -> row_get r k d = d.
Proof.
  unfold row_get, has_key. induction r as [|[k' v] r IH]; simpl; [reflexivity|].
  destruct (k' =? k); [discriminate|exact IH].
Qed.

(** Off the NaN case the outcome classifier meets the 4.2 contract. *)
Lemma get_outcome_contract_off_nan fs r :
  row_get r "Net P&L" PNone <> PNaN ->
  get_outcome fs r = claimed_outcome fs r.
Proof.
  intros Hn. unfold get_outcome, claimed_outcome.
  assert (E : match py_float fs (row_get r "Net P&L" (PInt 0)) with
              | Some f => f | None => FFin 0 end
              = claimed_pnl fs (row_get r "Net P&L" PNone)).
  { unfold row_get in *. destruct (find _ r) as [[k v]|]; [|reflexivity].
    destruct v; try reflexivity. congruence. }
  rewrite E. reflexivity.
Qed.

(** C2 (code bug): an empty "Net P&L" cell reaches [get_outcome] as the
    float NaN, which [float()] accepts, so it is not coerced to 0: with an
    empty status the outcome is "" where the contract gives "breakeven",
    and with status "Win" it is "green" where the contract gives
    "breakeven". *)
Theorem get_outcome_nan_pnl (fs : string -> option pyfloat) :
  get_outcome fs [("Status", PStr ""); ("Net P&L", PNaN)] = "" /\
  claimed_outcome fs [("Status", PStr ""); ("Net P&L", PNaN)] = "breakeven" /\
  get_outcome fs [("Status", PStr "Win"); ("Net P&L", PNaN)] = "green" /\
  claimed_outcome fs [("Status", PStr "Win"); ("Net P&L", PNaN)] = "breakeven".
Proof. repeat split. Qed.



Lemma map_row_raise fs pdt r e :
  map_row fs pdt r = Raise e -> format_date pdt (row_get r "Open Date" PNone) = Raise e.
Proof.
  unfold map_row. destruct (get_entry_model _) as [em os].
  destruct (format_date pdt _) as [txt|e']; [discriminate|].
  intros H. injection H as <-. reflexivity.
Qed.

Lemma format_date_raise pdt v e : format_date pdt v = Raise e -> e = NaTStrftime.
Proof.
  unfold format_date. destruct (safe_date pdt v) as [[d|]|]; try discriminate.
  intros H. injection H as <-. reflexivity.
Qed.

Lemma map_row_raise_nat fs pdt r e : map_row fs pdt r = Raise e -> e = NaTStrftime.
Proof. intros H. eapply format_date_raise, map_row_raise, H. Qed.

(** [sheets_payload] succeeds exactly when [map_row] succeeds on every row,
    and then holds one mapped row per row, in order. *)
Lemma sheets_payload_Forall2 fs pdt df vals :
  sheets_payload fs pdt df = Ok vals <-> Forall2 (fun r out => map_row fs pdt r = Ok out) df vals.
Proof.
  revert vals. induction df as [|r df IH]; intros vals; simpl.
  - split; [intros H; injection H as <-; constructor|].
    intros H; inversion H; reflexivity.
  - split.
    + destruct (map_row fs pdt r) as [out|e] eqn:Er; [|discriminate].
      destruct (sheets_payload fs pdt df) as [outs|e] eqn:Es; [|discriminate].
      intros H. injection H as <-. constructor; [exact Er|apply IH; reflexivity].
    + intros H. inversion H as [|? out ? outs Hr Hs]; subst.
      rewrite Hr. apply IH in Hs. rewrite Hs. reflexivity.
Qed.

(** When some row of the frame has a date that [map_row] cannot render,
    the whole payload raises. *)
Lemma sheets_payload_raise fs pdt df r :
  In r df -> map_row fs pdt r = Raise NaTStrftime ->
  sheets_payload fs pdt df = Raise NaTStrftime.
Proof.
  induction df as [|r0 df IH]; intros Hin Hr; [destruct Hin|]. simpl.
  destruct (map_row fs pdt r0) as [out|e] eqn:E0.
  - destruct Hin as [<-|Hin]; [congruence|].
    rewrite (IH Hin Hr). reflexivity.
  - rewrite (map_row_raise_nat _ _ _ _ E0). reflexivity.
Qed.

Lemma xlsx_cells_payload fs pdt df : forall i,
  xlsx_cells fs pdt i df =
  match sheets_payload fs pdt df with
  | Ok vals => Ok (block_cells i vals)
  | Raise e => Raise e
  end.
Proof.
  induction df as [|r df IH]; intros i; simpl; [reflexivity|].
  destruct (map_row fs pdt r) as [out|e]; [|reflexivity].
  rewrite IH. destruct (sheets_payload fs pdt df); reflexivity.
Qed.











Lemma insert_row_perm r df : Permutation (insert_row r df) (r :: df).
Proof.
  induction df as [|r' df IH]; simpl; [reflexivity|].
  destruct (ts_leb _ _); [reflexivity|].
  eapply perm_trans; [apply perm_skip, IH | apply perm_swap].
Qed.

Lemma sort_by_date_perm df : Permutation (sort_by_date df) df.
Proof.
  induction df as [|r df IH]; simpl; [reflexivity|].
  eapply perm_trans; [apply insert_row_perm | apply perm_skip, IH].
Qed.



Lemma row_get_set r k v d : has_key r k = true -> row_get (row_set k v r) k d = v.
Proof.
  unfold row_get, row_set, has_key. induction r as [|[k' v'] r IH]; simpl;
    [discriminate|].
  destruct (k' =? k) eqn:E; simpl; rewrite E; [reflexivity|exact IH].
Qed.

Lemma row_get_present r k : row_get r k PNone <> PNone -> has_key r k = true.
Proof.
  intros H. destruct (has_key r k) eqn:E; [reflexivity|].
  exfalso. apply H, row_get_absent, E.
Qed.

Lemma kept_has_key tbl :
  Forall (fun r => has_key r "Open Date" = true) (filter has_open_date (rows tbl)).
Proof.
  apply Forall_forall. intros r Hr. apply filter_In in Hr as [_ Hr].
  unfold has_open_date in Hr. apply (row_get_present r "Open Date").
  intros E. rewrite E in Hr. discriminate.
Qed.

Lemma convert_dates_cells pdt df : forall df',
  Forall (fun r => has_key r "Open Date" = true) df ->
  convert_dates pdt df = Some df' ->
  Forall (fun r => dated_cell (row_get r "Open Date" PNone)) df'.
Proof.
  induction df as [|r df IH]; intros df' Hk H; simpl in H.
  - injection H as <-. constructor.
  - inversion Hk; subst.
    destruct (to_datetime pdt _) as [d|]; [|discriminate].
    destruct (convert_dates pdt df) as [df''|] eqn:E; [|discriminate].
    injection H as <-. constructor; [|apply IH; auto].
    rewrite row_get_set by assumption. unfold dated_cell.
    destruct d as [t|]; [left; exists t|right]; reflexivity.
Qed.







(** C7 (counterexample): given both flags, the --sheets flag does not force
    the cloud sink: the file sink is used. *)
Lemma use_sheets_both_flags :
  use_sheets true true "1AbC-sheet" true = false.
Proof. reflexivity. Qed.

(** C7 (amended): --xlsx forces the file sink, whether or not --sheets is
    given; --sheets alone forces the cloud sink; with neither flag the cloud
    sink is used exactly when the resolved spreadsheet identifier is not the
    placeholder and the credential file exists, and the file sink otherwise. *)
Theorem use_sheets_spec (xlsx sheets : bool) (sheet_id : string) (creds_exists : bool) :
  use_sheets xlsx sheets sheet_id creds_exists = true <->
  xlsx = false /\ (sheets = true \/ (sheet_id <> SPREADSHEET_ID /\ creds_exists = true)).
Proof.
  unfold use_sheets. destruct xlsx, sheets; simpl; try (intuition congruence).
  rewrite andb_true_iff, negb_true_iff, String.eqb_neq. intuition congruence.
Qed.

(** C8: when both --xlsx and --sheets are given, [main] never writes to the
    cloud sheet: the --xlsx test comes first and selects the file sink. *)
Theorem main_xlsx_precedence fs pdt (e : env) (a : args)
  (Hx : a_xlsx a = true) (Hs : a_sheets a = true) :
  (forall id cr tab vals, main fs pdt e a <> WroteSheets id cr tab vals) /\
  (forall id ex, use_sheets (a_xlsx a) (a_sheets a) id ex = false).
Proof.
  split; [|intros; rewrite Hx; reflexivity].
  intros id cr tab vals. unfold main. rewrite Hx.
  destruct (negb (path_exists e (a_csv a))); [discriminate|].
  destruct (prepare_frame pdt _); [|discriminate].
  simpl. destruct (negb (path_exists e _)); [discriminate|].
  destruct (xlsx_cells _ _ _ _); discriminate.
Qed.

Lemma main_xlsx_precedence_witness :
  a_xlsx (demo_args true true) = true /\ a_sheets (demo_args true true) = true /\
  main (fun _ => None) (fun _ => None) demo_env (demo_args true true)
    <> WroteSheets "1AbC-sheet" "/home/u/service_account.json" "Sheet1" [].
Proof.
  split; [reflexivity|]. split; [reflexivity|].
  exact (proj1 (main_xlsx_precedence (fun _ => None) (fun _ => None) demo_env
                  (demo_args true true) eq_refl eq_refl) _ _ _ _).
Defined.

(** C10: when the CSV exists but its frame has no "Open Date" column, the
    filtering step raises KeyError: [main] neither exits through its
    reported fatal-error path nor writes any output. *)
Theorem main_missing_open_date_column fs pdt (e : env) (a : args)
  (Hcsv : path_exists e (a_csv a) = true)
  (Hcol : mem "Open Date" (columns (read_csv e (a_csv a))) = false) :
  main fs pdt e a = Raised (KeyError "Open Date") /\
  (forall code, main fs pdt e a <> Exit code).
Proof.
  assert (E : main fs pdt e a = Raised (KeyError "Open Date")).
  { unfold main, prepare_frame. rewrite Hcsv, Hcol. reflexivity. }
  split; [exact E|]. intros code. rewrite E. discriminate.
Qed.

Lemma main_missing_open_date_column_witness :
  path_exists no_date_env "trades.csv" = true /\
  mem "Open Date" (columns (read_csv no_date_env "trades.csv")) = false /\
  main (fun _ => None) (fun _ => None) no_date_env (demo_args false false)
    = Raised (KeyError "Open Date").
Proof.
  split; [reflexivity|]. split; [reflexivity|].
  exact (proj1 (main_missing_open_date_column (fun _ => None) (fun _ => None)
                  no_date_env (demo_args false false) eq_refl eq_refl)).
Defined.

(** The end-to-end example of the spec: three CSV rows, one of them without
    a date, give two destination rows of 15 values with currency "USD". *)
Example end_to_end_three_rows :
  let pdt := demo_parse in
  let csv := mk_table ["Open Date"; "Net P&L"; "Status"]
               [[("Open Date", PStr "2024-03-15"); ("Net P&L", PInt 150); ("Status", PStr "Win")];
                [("Open Date", PStr "2024-03-14"); ("Net P&L", PNaN); ("Status", PNaN)];
                [("Open Date", PNaN); ("Net P&L", PInt 145); ("Status", PNaN)]] in
  match main (fun _ => None) pdt (mk_env (fun _ => true) (fun _ => csv) "/home/u" "20241018")
             (demo_args false true) with
  | WroteSheets _ _ _ vals =>
      List.length vals = 2%nat /\
      Forall (fun out => List.length out = 15%nat /\ nth 3 out PNone = PStr "USD") vals /\
      map (fun out => hd PNone out) vals = [PStr "2024-03-14"; PStr "2024-03-15"]
  | _ => False
  end.
Proof. vm_compute. repeat constructor. Qed.

Example write_to_xlsx_example :
  write_to_xlsx (fun _ => None) (fun _ => None)
    [[PStr "Trading Date"]; [PStr "old"]; [PStr "old"; PInt 3]]
    [[("Open Date", PTs (mk_ts 2024 3 15 0))]]
  = res_map (fun out => [[PStr "Trading Date"]; out])
      (map_row (fun _ => None) (fun _ => None) [("Open Date", PTs (mk_ts 2024 3 15 0))]).
Proof. vm_compute. reflexivity. Qed.

Example parse_ymd_example : parse_ymd "2024-03-15" = Some (mk_date 2024 3 15).
Proof. reflexivity. Qed.

(** ** Further properties of the code *)

Open Scope list_scope.

Lemma update_row_end f g : update_row (List.length g) f g = g ++ [f []].
Proof. induction g as [|r g IH]; simpl; [reflexivity|]. rewrite IH. reflexivity. Qed.

Lemma update_row_last f g r :
  update_row (List.length g) f (g ++ [r]) = g ++ [f r].
Proof. induction g as [|r' g IH]; simpl; [reflexivity|]. rewrite IH. reflexivity. Qed.

Lemma set_nth_pad_end v r : set_nth_pad (List.length r) v r = r ++ [v].
Proof. induction r as [|x r IH]; simpl; [reflexivity|]. rewrite IH. reflexivity. Qed.

Lemma write_cells_app g c1 c2 :
  write_cells g (c1 ++ c2) = write_cells (write_cells g c1) c2.
Proof. unfold write_cells. apply fold_left_app. Qed.

Lemma write_row_tail g r vals :
  write_cells (g ++ [r])
    (map (fun jv => (S (List.length g), fst jv, snd jv))
         (enumerate (S (List.length r)) vals))
  = g ++ [r ++ vals].
Proof.
  revert r. induction vals as [|v vals IH]; intros r; simpl.
  - rewrite app_nil_r. reflexivity.
  - unfold set_cell. simpl. rewrite !Nat.sub_0_r.
    rewrite update_row_last, set_nth_pad_end.
    replace (S (S (List.length r))) with (S (List.length (r ++ [v])))
      by (rewrite length_app; simpl; lia).
    change (write_cells (g ++ [r ++ [v]])
      (map (fun jv => (S (List.length g), fst jv, snd jv))
         (enumerate (S (List.length (r ++ [v]))) vals)) = g ++ [r ++ v :: vals]).
    rewrite IH, <- app_assoc. reflexivity.
Qed.

Lemma write_row_new g v vals :
  write_cells g
    (map (fun jv => (S (List.length g), fst jv, snd jv)) (enumerate 1 (v :: vals)))
  = g ++ [v :: vals].
Proof.
  simpl. unfold set_cell. simpl. rewrite Nat.sub_0_r, update_row_end.
  change [v] with ([] ++ [v]).
  apply (write_row_tail g [v] vals).
Qed.

Lemma write_block g vals :
  Forall (fun r => r <> []) vals ->
  write_cells g (block_cells (S (List.length g)) vals) = g ++ vals.
Proof.
  revert g. induction vals as [|r vals IH]; intros g Hne; simpl.
  - rewrite app_nil_r. reflexivity.
  - inversion Hne as [|? ? Hr Hvals]; subst.
    rewrite write_cells_app. destruct r as [|v r]; [congruence|].
    rewrite write_row_new.
    replace (S (S (List.length g))) with (S (List.length (g ++ [v :: r])))
      by (rewrite length_app; simpl; lia).
    rewrite IH by exact Hvals. rewrite <- app_assoc. reflexivity.
Qed.

Lemma sheets_payload_nonempty fs pdt df vals :
  sheets_payload fs pdt df = Ok vals -> Forall (fun r => r <> []) vals.
Proof.
  intros H. apply sheets_payload_Forall2 in H.
  induction H as [|r out df vals Hr _ IH]; constructor; [|exact IH].
  revert Hr. unfold map_row. destruct (get_entry_model _) as [em os].
  destruct (format_date pdt _); [|discriminate].
  intros E. injection E as <-. discriminate.
Qed.

(** [write_to_xlsx] keeps the template's header row and replaces every
    old data row: the sheet it saves is the header followed by exactly one
    mapped row per trade, in order; when the row mapper raises on a trade,
    [write_to_xlsx] raises that error. *)
Theorem write_to_xlsx_layout fs pdt (header : list pyval) (old_rows : grid)
    (df : list row) :
  (forall rows, Forall2 (fun r out => map_row fs pdt r = Ok out) df rows ->
     write_to_xlsx fs pdt (header :: old_rows) df = Ok (header :: rows)) /\
  (forall r, In r df -> map_row fs pdt r = Raise NaTStrftime ->
     write_to_xlsx fs pdt (header :: old_rows) df = Raise NaTStrftime).
Proof.
  unfold write_to_xlsx.
  assert (E : (if (1 <? max_row (header :: old_rows))%nat
               then delete_rows (header :: old_rows) 2 (max_row (header :: old_rows))
               else header :: old_rows) = [header]).
  { unfold max_row, delete_rows.
    destruct old_rows as [|r rest]; [reflexivity|].
    rewrite skipn_all2 by (simpl; lia). reflexivity. }
  rewrite E, xlsx_cells_payload. split.
  - intros rows H. apply sheets_payload_Forall2 in H. rewrite H.
    f_equal. apply (write_block [header]), (sheets_payload_nonempty fs pdt df), H.
  - intros r Hin Hr. rewrite (sheets_payload_raise fs pdt df r Hin Hr). reflexivity.
Qed.

(** [write_to_sheets] appends: the sheet afterwards is its previous content
    followed by one mapped row per trade, in order; with no trades it is
    left as it was; when the row mapper raises on a trade, nothing is
    written and [write_to_sheets] raises that error. *)
Theorem write_to_sheets_appends fs pdt (existing : grid) (df : list row) :
  (forall rows, Forall2 (fun r out => map_row fs pdt r = Ok out) df rows ->
     write_to_sheets fs pdt existing df = Ok (existing ++ rows)) /\
  (forall r, In r df -> map_row fs pdt r = Raise NaTStrftime ->
     write_to_sheets fs pdt existing df = Raise NaTStrftime).
Proof.
  unfold write_to_sheets. split.
  - intros rows H. apply sheets_payload_Forall2 in H. rewrite H.
    destruct rows as [|out rows]; [rewrite app_nil_r; reflexivity|].
    f_equal. rewrite Nat.add_1_r.
    apply write_block, (sheets_payload_nonempty fs pdt df), H.
  - intros r Hin Hr. rewrite (sheets_payload_raise fs pdt df r Hin Hr). reflexivity.
Qed.

Lemma candidate_matches_valid v m :
  In m (candidate_matches v) -> In m VALID_ENTRY_MODELS /\ m <> OTHER.
Proof.
  unfold candidate_matches. intros H. apply filter_In in H as [_ H].
  apply andb_prop in H as [H1 H2]. apply mem_In in H1.
  apply negb_true_iff, String.eqb_neq in H2. auto.
Qed.

(** The entry model [get_entry_model] returns is always one of the STB
    dropdown values, the overflow is "-" whenever it is the catch-all, and
    classifying the returned entry model again gives it back with overflow
    "-". *)
Theorem get_entry_model_valid (v : pyval) :
  let '(em, extra) := get_entry_model v in
  In em VALID_ENTRY_MODELS /\
  (em = OTHER -> extra = "-") /\
  get_entry_model (PStr em) = (em, "-").
Proof.
  assert (Hre : forall m, In m VALID_ENTRY_MODELS -> get_entry_model (PStr m) = (m, "-")).
  { intros m Hm. repeat (destruct Hm as [<-|Hm]; [vm_compute; reflexivity|]).
    destruct Hm. }
  assert (Hoth : In OTHER VALID_ENTRY_MODELS) by (vm_compute; tauto).
  rewrite get_entry_model_unfold.
  destruct (is_blank_cell v); [split; [exact Hoth|split; auto]|].
  destruct (forallb _ _); [split; [exact Hoth|split; auto]|].
  destruct (candidate_matches v) as [|m0 rest] eqn:E;
    [split; [exact Hoth|split; auto]|].
  destruct (candidate_matches_valid v m0) as [Hm Hne]; [rewrite E; left; reflexivity|].
  split; [exact Hm|split; [intros H; congruence|apply Hre, Hm]].
Qed.

Lemma Q_trichotomy_bool q :
  Qeq_bool q 0 = false -> negb (Qle_bool q 0) = false -> negb (Qle_bool 0 q) = false -> False.
Proof.
  intros H1 H2 H3. apply negb_false_iff, Qle_bool_iff in H2, H3.
  assert (E : q == 0) by (apply Qle_antisym; assumption).
  apply Qeq_bool_iff in E. congruence.
Qed.

(** [get_outcome] always answers "breakeven", "green", "red" or "", and it
    answers "" only when the P&L value is a float NaN: a status outside
    breakeven/win/loss is still classified by the sign of any other P&L,
    including a non-numeric one (read as 0). *)
Theorem get_outcome_empty_only_nan fs (r : row) :
  In (get_outcome fs r) ["breakeven"; "green"; "red"; ""] /\
  (get_outcome fs r = "" -> py_float fs (row_get r "Net P&L" (PInt 0)) = Some FNaN).
Proof.
  unfold get_outcome.
  set (st := py_lower (py_strip (py_str (row_get r "Status" (PStr ""))))).
  destruct (py_float fs (row_get r "Net P&L" (PInt 0))) as [f|] eqn:Ef.
  - destruct ((st =? "breakeven") || float_eq0 f) eqn:E1; [split; [simpl; auto 6 | discriminate]|].
    destruct ((st =? "win") || float_gt0 f) eqn:E2; [split; [simpl; auto 6 | discriminate]|].
    destruct ((st =? "loss") || float_lt0 f) eqn:E3; [split; [simpl; auto 6 | discriminate]|].
    split; [simpl; auto|intros _].
    apply orb_false_iff in E1 as [_ E1], E2 as [_ E2], E3 as [_ E3].
    destruct f as [|[]|q]; try discriminate; [reflexivity|].
    exfalso. exact (Q_trichotomy_bool q E1 E2 E3).
  - destruct ((st =? "breakeven") || float_eq0 (FFin 0)) eqn:E1; [split; [simpl; auto 6 | discriminate]|].
    apply orb_false_iff in E1 as [_ E1]. discriminate.
Qed.

Lemma lstrip_idem s : lstrip (lstrip s) = lstrip s.
Proof.
  induction s as [|c s IH]; simpl; [reflexivity|].
  destruct (is_py_space c) eqn:E; [exact IH|simpl; rewrite E; reflexivity].
Qed.

Lemma rstrip_idem s : rstrip (rstrip s) = rstrip s.
Proof.
  induction s as [|c s IH]; simpl; [reflexivity|].
  destruct ((rstrip s =? "") && is_py_space c) eqn:E; [reflexivity|].
  simpl. rewrite IH, E. reflexivity.
Qed.

Lemma lstrip_rstrip_lstrip s : lstrip (rstrip (lstrip s)) = rstrip (lstrip s).
Proof.
  induction s as [|c s IH]; simpl; [reflexivity|].
  destruct (is_py_space c) eqn:E; [exact IH|].
  simpl. rewrite E, andb_false_r. simpl. rewrite E. reflexivity.
Qed.

Lemma py_strip_idem s : py_strip (py_strip s) = py_strip s.
Proof.
  unfold py_strip. rewrite lstrip_rstrip_lstrip, rstrip_idem. reflexivity.
Qed.

(** [safe_str] returns "" for a null cell, and otherwise text that has no
    surrounding whitespace left and is never "nan" in any casing. *)
Theorem safe_str_clean (v : pyval) :
  (isna v = true -> safe_str v = "") /\
  py_strip (safe_str v) = safe_str v /\
  py_lower (safe_str v) <> "nan".
Proof.
  unfold safe_str. destruct (isna v); [split; [reflexivity|split; [reflexivity|discriminate]]|].
  split; [discriminate|].
  destruct (py_lower (py_strip (py_str v)) =? "nan") eqn:E;
    [split; [reflexivity|discriminate]|].
  split; [apply py_strip_idem|]. apply String.eqb_neq, E.
Qed.

(** Normalising an answer [normalize_yesno] produced gives it back:
    "yes", "no" and "" are fixed points. *)
Theorem normalize_yesno_idem (v : pyval) :
  normalize_yesno (PStr (normalize_yesno v)) = normalize_yesno v.
Proof.
  unfold normalize_yesno at 2 3.
  set (w := py_lower (py_strip (py_str v))).
  destruct (contains "yes" w && contains "no" w); [reflexivity|].
  destruct (mem w ["true"; "yes"; "1"; "y"]); [reflexivity|].
  destruct (mem w ["false"; "no"; "0"; "n"]); reflexivity.
Qed.

Lemma digits_ok_range f w (lo len z : Z) :
  forallb (fun k => digits_ok f w (lo + Z.of_nat k)) (seq 0 (Z.to_nat len)) = true ->
  (lo <= z < lo + len)%Z ->
  length (f z) = w /\ digits_value 0 (f z) = Some z.
Proof.
  intros Hall Hz. rewrite forallb_forall in Hall.
  specialize (Hall (Z.to_nat (z - lo))).
  rewrite Z2Nat.id in Hall by lia.
  replace (lo + (z - lo))%Z with z in Hall by lia.
  assert (H : digits_ok f w z = true) by (apply Hall, in_seq; lia).
  unfold digits_ok in H. apply andb_prop in H as [H1 H2].
  apply Nat.eqb_eq in H1. split; [exact H1|].
  destruct (digits_value 0 _) as [z'|]; [|discriminate].
  apply Z.eqb_eq in H2. subst. reflexivity.
Qed.

Lemma four_digit_years :
  forallb (fun k => digits_ok Z_to_string 4 (1000 + Z.of_nat k)) (seq 0 (Z.to_nat 9000)) = true.
Proof. vm_compute. reflexivity. Qed.

Lemma pad2_values :
  forallb (fun k => digits_ok pad2 2 (0 + Z.of_nat k)) (seq 0 (Z.to_nat 100)) = true.
Proof. vm_compute. reflexivity. Qed.

Lemma length4 s : length s = 4%nat ->
  exists a b c d, s = String a (String b (String c (String d ""))).
Proof.
  destruct s as [|a [|b [|c [|d [|e s]]]]]; simpl; try discriminate.
  intros _. exists a, b, c, d. reflexivity.
Qed.

Lemma length2 s : length s = 2%nat -> exists a b, s = String a (String b "").
Proof.
  destruct s as [|a [|b [|c s]]]; simpl; try discriminate.
  intros _. exists a, b. reflexivity.
Qed.

(** The date text [format_date] writes for a timestamp loses nothing of
    its calendar date: for a four-digit year it is ten characters
    "YYYY-MM-DD" that read back as the same year, month and day (the time
    of day is dropped). *)
Theorem format_date_roundtrip pdt (t : timestamp)
  (Hy : (1000 <= ts_year t <= 9999)%Z)
  (Hm : (1 <= ts_month t <= 12)%Z)
  (Hd : (1 <= ts_day t <= 31)%Z) :
  exists s, format_date pdt (PTs t) = Ok s /\
            length s = 10%nat /\
            parse_ymd s = Some (ts_date t).
Proof.
  exists (Z_to_string (ts_year t) ++ "-" ++ pad2 (ts_month t) ++ "-" ++ pad2 (ts_day t))%string.
  split; [reflexivity|].
  destruct (digits_ok_range Z_to_string 4 1000 9000 (ts_year t) four_digit_years) as [Ly Vy]; [lia|].
  destruct (digits_ok_range pad2 2 0 100 (ts_month t) pad2_values) as [Lm Vm]; [lia|].
  destruct (digits_ok_range pad2 2 0 100 (ts_day t) pad2_values) as [Ld Vd]; [lia|].
  destruct (length4 _ Ly) as (y1 & y2 & y3 & y4 & Ey).
  destruct (length2 _ Lm) as (m1 & m2 & Em).
  destruct (length2 _ Ld) as (d1 & d2 & Ed).
  rewrite Ey in Vy |- *. rewrite Em in Vm |- *. rewrite Ed in Vd |- *.
  split; [reflexivity|].
  unfold parse_ymd. simpl substring. simpl length. simpl String.eqb.
  rewrite Vy, Vm, Vd. reflexivity.
Qed.

Lemma format_date_roundtrip_witness :
  exists s, format_date (fun _ => None) (PTs (mk_ts 2024 3 15 34200)) = Ok s /\
            parse_ymd s = Some (mk_date 2024 3 15).
Proof.
  destruct (format_date_roundtrip (fun _ => None) (mk_ts 2024 3 15 34200)
              ltac:(simpl; lia) ltac:(simpl; lia) ltac:(simpl; lia)) as (s & Hs & _ & Hp).
  exists s. split; [exact Hs|exact Hp].
Defined.

Lemma ts_leb_total a b : ts_leb a b = false -> ts_leb b a = true.
Proof.
  unfold ts_leb.
  destruct a as [y1 m1 d1 s1], b as [y2 m2 d2 s2]; simpl.
  destruct (Z.ltb_spec y1 y2), (Z.ltb_spec y2 y1), (Z.eqb_spec y1 y2), (Z.eqb_spec y2 y1),
    (Z.ltb_spec m1 m2), (Z.ltb_spec m2 m1), (Z.eqb_spec m1 m2), (Z.eqb_spec m2 m1),
    (Z.ltb_spec d1 d2), (Z.ltb_spec d2 d1), (Z.eqb_spec d1 d2), (Z.eqb_spec d2 d1),
    (Z.leb_spec s1 s2), (Z.leb_spec s2 s1);
    simpl; intros; try reflexivity; try discriminate; lia.
Qed.

Lemma insert_row_hdrel a r df :
  HdRel date_le a df -> date_le a r -> HdRel date_le a (insert_row r df).
Proof.
  intros Hh Har. destruct df as [|b df]; simpl; [constructor; exact Har|].
  destruct (ts_leb (date_key r) (date_key b)); constructor; [exact Har|].
  inversion Hh; assumption.
Qed.

Lemma insert_row_sorted r df : Sorted date_le df -> Sorted date_le (insert_row r df).
Proof.
  induction df as [|b df IH]; intros H; simpl; [repeat constructor|].
  destruct (ts_leb (date_key r) (date_key b)) eqn:E.
  - constructor; [exact H|]. constructor. exact E.
  - inversion H as [|? ? Hs Hh]; subst. constructor; [apply IH, Hs|].
    apply insert_row_hdrel; [exact Hh|]. apply ts_leb_total, E.
Qed.

Lemma sort_by_date_sorted df : Sorted date_le (sort_by_date df).
Proof.
  induction df as [|r df IH]; simpl; [constructor|]. apply insert_row_sorted, IH.
Qed.

(** The frame [main] hands to a sink holds first the rows whose "Open
    Date" is a timestamp, in chronological order, then the rows whose date
    [pd.to_datetime] turned into [NaT]. *)
Theorem prepare_frame_sorted pdt (tbl : table) (df : list row)
  (H : prepare_frame pdt tbl = Ok df) :
  exists dated undated,
    df = dated ++ undated /\
    Sorted date_le dated /\
    Forall (fun r => exists t, row_get r "Open Date" PNone = PTs t) dated /\
    Forall (fun r => row_get r "Open Date" PNone = PNaT) undated.
Proof.
  unfold prepare_frame in H.
  destruct (negb (mem "Open Date" (columns tbl))); [discriminate|].
  destruct (convert_dates pdt (filter has_open_date (rows tbl))) as [df0|] eqn:Ec;
    [|discriminate].
  injection H as <-.
  pose proof (convert_dates_cells pdt _ _ (kept_has_key tbl) Ec) as F.
  rewrite Forall_forall in F.
  exists (sort_by_date (filter (fun r => negb (date_isna r)) df0)), (filter date_isna df0).
  split; [reflexivity|]. split; [apply sort_by_date_sorted|]. split.
  - apply Forall_forall. intros r Hr.
    apply (Permutation_in _ (sort_by_date_perm _)), filter_In in Hr as [Hin Hn].
    unfold date_isna in Hn. destruct (F r Hin) as [Ht|Ht]; [exact Ht|].
    rewrite Ht in Hn. discriminate.
  - apply Forall_forall. intros r Hr. apply filter_In in Hr as [Hin Hn].
    unfold date_isna in Hn. destruct (F r Hin) as [[t Ht]|Ht]; [|exact Ht].
    rewrite Ht in Hn. discriminate.
Qed.

Lemma prepare_frame_sorted_witness :
  let tbl := mk_table ["Open Date"]
               [[("Open Date", PStr "2024-03-15")];
                [("Open Date", PStr "NaT")];
                [("Open Date", PStr "2024-03-14")]] in
  prepare_frame demo_parse tbl = Ok [[("Open Date", PTs (mk_ts 2024 3 14 0))];
                                     [("Open Date", PTs (mk_ts 2024 3 15 0))];
                                     [("Open Date", PNaT)]] /\
  exists dated undated,
    [[("Open Date", PTs (mk_ts 2024 3 14 0))];
     [("Open Date", PTs (mk_ts 2024 3 15 0))];
     [("Open Date", PNaT)]] = dated ++ undated /\
    Sorted date_le dated.
Proof.
  intros tbl.
  assert (H : prepare_frame demo_parse tbl = Ok [[("Open Date", PTs (mk_ts 2024 3 14 0))];
                                                 [("Open Date", PTs (mk_ts 2024 3 15 0))];
                                                 [("Open Date", PNaT)]])
    by (vm_compute; reflexivity).
  split; [exact H|].
  destruct (prepare_frame_sorted demo_parse tbl _ H) as (d & u & E & S & _).
  exists d, u. split; [exact E|exact S].
Defined.

(** [main] writes to the cloud sheet only after the CSV was found, the
    frame was loaded, --xlsx was absent, the resolved spreadsheet
    identifier is not the placeholder and the resolved credential file
    exists; what it writes is the mapped frame. *)
Theorem main_sheets_preconditions fs pdt (e : env) (a : args) id cr tab vals
  (H : main fs pdt e a = WroteSheets id cr tab vals) :
  path_exists e (a_csv a) = true /\
  a_xlsx a = false /\
  id = py_or (a_sheet_id a) SPREADSHEET_ID /\ id <> SPREADSHEET_ID /\
  cr = py_or (a_creds a) (SERVICE_ACCOUNT_FILE e) /\ path_exists e cr = true /\
  exists df, prepare_frame pdt (read_csv e (a_csv a)) = Ok df /\
             sheets_payload fs pdt df = Ok vals.
Proof.
  split_main H. injection H as <- <- _ <-.
  apply negb_false_iff in E. apply String.eqb_neq in E1.
  apply negb_false_iff in E2.
  unfold use_sheets in E0. destruct (a_xlsx a); [discriminate|].
  do 6 (split; [first [assumption | reflexivity]|]).
  exists a0. split; [reflexivity|assumption].
Qed.

Lemma main_sheets_preconditions_witness :
  exists vals,
    main (fun _ => None) (fun _ => None) cloud_env (demo_args false false)
      = WroteSheets "1AbC-sheet" "/home/u/service_account.json" "Sheet1" vals /\
    "1AbC-sheet" <> SPREADSHEET_ID.
Proof.
  set (vals := match sheets_payload (fun _ => None) (fun _ => None)
                       [[("Open Date", PTs (mk_ts 2024 3 15 0))]] with
               | Ok v => v | Raise _ => [] end).
  assert (H : main (fun _ => None) (fun _ => None) cloud_env (demo_args false false)
    = WroteSheets "1AbC-sheet" "/home/u/service_account.json" "Sheet1" vals)
    by (vm_compute; reflexivity).
  exists vals. split; [exact H|].
  exact (proj1 (proj2 (proj2 (proj2 (main_sheets_preconditions _ _ _ _ _ _ _ _ H))))).
Defined.

(** [main] writes the spreadsheet file only after the CSV was found, the
    frame was loaded and the template exists, and only when --xlsx was
    given or, without --sheets, the cloud sheet is not configured; the file
    goes to --output when it is non-empty and to
    "STB_Import_Merged_<date>.xlsx" in the script's directory otherwise. *)
Theorem main_xlsx_preconditions fs pdt (e : env) (a : args) tpl out cells
  (H : main fs pdt e a = WroteXlsx tpl out cells) :
  path_exists e (a_csv a) = true /\
  path_exists e tpl = true /\
  (a_xlsx a = true \/
   (a_sheets a = false /\
    (py_or (a_sheet_id a) SPREADSHEET_ID = SPREADSHEET_ID \/
     path_exists e (py_or (a_creds a) (SERVICE_ACCOUNT_FILE e)) = false))) /\
  out = py_or (a_output a)
          (path_join (script_dir e) ("STB_Import_Merged_" ++ today e ++ ".xlsx")) /\
  exists df, prepare_frame pdt (read_csv e (a_csv a)) = Ok df /\
             xlsx_cells fs pdt 2 df = Ok cells.
Proof.
  split_main H. injection H as <- <- <-.
  apply negb_false_iff in E, E1.
  split; [exact E|]. split; [exact E1|]. split.
  - unfold use_sheets in E0.
    destruct (a_xlsx a); [left; reflexivity|right].
    destruct (a_sheets a); [discriminate|]. split; [reflexivity|].
    apply andb_false_iff in E0 as [E0|E0]; [left|right; exact E0].
    apply negb_false_iff, String.eqb_eq in E0. exact E0.
  - split; [reflexivity|]. exists a0. split; [reflexivity|assumption].
Qed.

Lemma main_xlsx_preconditions_witness :
  path_exists cloud_env "/home/u/STB_Import_Template.xlsx" = true /\
  exists out cells,
    main (fun _ => None) (fun _ => None) cloud_env (demo_args true false)
      = WroteXlsx "/home/u/STB_Import_Template.xlsx" out cells /\
    out = "/home/u/STB_Import_Merged_20241018.xlsx".
Proof.
  set (res := main (fun _ => None) (fun _ => None) cloud_env (demo_args true false)).
  assert (H : res = WroteXlsx "/home/u/STB_Import_Template.xlsx"
                      "/home/u/STB_Import_Merged_20241018.xlsx"
                      (match xlsx_cells (fun _ => None) (fun _ => None) 2
                               [[("Open Date", PTs (mk_ts 2024 3 15 0))]] with
                       | Ok c => c | Raise _ => [] end))
    by (vm_compute; reflexivity).
  pose proof (main_xlsx_preconditions _ _ _ _ _ _ _ H) as P.
  split; [exact (proj1 (proj2 P))|].
  eexists; eexists; split; [exact H|].
  exact (proj1 (proj2 (proj2 (proj2 P)))).
Defined.

(** With --sheets and without --xlsx, an unset spreadsheet identifier or
    a missing credential file is fatal: [main] exits with status 1 (or has
    already failed on the CSV) and never falls back to the spreadsheet file. *)
Theorem main_forced_sheets_unconfigured fs pdt (e : env) (a : args)
  (Hx : a_xlsx a = false) (Hs : a_sheets a = true)
  (Hc : py_or (a_sheet_id a) SPREADSHEET_ID = SPREADSHEET_ID \/
        path_exists e (py_or (a_creds a) (SERVICE_ACCOUNT_FILE e)) = false) :
  main fs pdt e a = Exit 1 \/ exists ex, main fs pdt e a = Raised ex.
Proof.
  unfold main. rewrite Hx, Hs. simpl.
  destruct (negb (path_exists e (a_csv a))); [left; reflexivity|].
  destruct (prepare_frame pdt _); [left|right; eexists; reflexivity].
  destruct Hc as [Hc|Hc].
  - rewrite Hc, String.eqb_refl. reflexivity.
  - rewrite Hc. destruct (_ =? _); reflexivity.
Qed.

Lemma main_forced_sheets_unconfigured_witness :
  main (fun _ => None) (fun _ => None) cloud_env
    (mk_args "trades.csv" true false None None None None None) = Exit 1.
Proof.
  destruct (main_forced_sheets_unconfigured (fun _ => None) (fun _ => None) cloud_env
              (mk_args "trades.csv" true false None None None None None)
              eq_refl eq_refl (or_introl eq_refl)) as [H|[ex H]];
    [exact H | vm_compute in H; discriminate H].
Defined.





